(** * utils/check_if_new_model_added.py

    A shallow embedding of the script that looks for the directory of a
    modeling file added in a pull request, and the properties of it that
    the specification states.

    Python [str] values are [string]s, lists are [list]s.  The GitPython
    objects the script talks to ([Repo], references, commits, diff
    entries) are records holding what each attribute access or method
    call answers; a call that can raise answers a [result].  Standard
    output is the text written so far, and [print] appends its argument
    and a newline to it. *)

From Stdlib Require Import String Ascii List Bool Arith Lia.
Import ListNotations.
Open Scope list_scope.
Open Scope string_scope.

(** ** Strings *)

Module Str.

(** [s.endswith(suffix)] *)
Fixpoint endswith (s suffix : string) : bool :=
  (s =? suffix) ||
  match s with
  | EmptyString => false
  | String _ s' => endswith s' suffix
  end.

(** The text between the start of [s] and the start of its tail [rest]. *)
Definition consumed (s rest : string) : string :=
  substring 0 (String.length s - String.length rest) s.

(** Number of newline characters of a text: the number of lines a
    newline-terminated text has. *)
Fixpoint count_lines (s : string) : nat :=
  match s with
  | EmptyString => 0
  | String c s' => (if Ascii.eqb c "010" then 1 else 0) + count_lines s'
  end.

(** Every line followed by a newline. *)
Fixpoint unlines (ls : list string) : string :=
  match ls with
  | [] => ""
  | l :: ls' => l ++ String "010" (unlines ls')
  end.

End Str.

(** ** Regular expressions

    The fragment of Python's [re] syntax that the script's pattern is
    written in: literal characters, [.], a postfix [*] on a single
    character or on [.], backslash escapes of a punctuation character,
    and one capturing group.  The matcher is the backtracking one of
    [re]: leftmost start, and a greedy [*] that first takes as many
    characters as it can and gives them back one by one. *)

Module Re.

Inductive atom : Type :=
| Chr (c : ascii)   (* this character *)
| Any.              (* [.]: any character except a newline *)

Inductive item : Type :=
| One (a : atom)
| Many (a : atom)   (* [a*], greedy *)
| Open              (* [(] *)
| Close.            (* [)] *)

Definition regex := list item.

Definition accepts (a : atom) (c : ascii) : bool :=
  match a with
  | Chr d => Ascii.eqb c d
  | Any => negb (Ascii.eqb c "010")
  end.

(** Every character of [s] is one that [a] accepts. *)
Fixpoint every (a : atom) (s : string) : bool :=
  match s with
  | EmptyString => true
  | String c s' => accepts a c && every a s'
  end.

(** Characters that have a meaning of their own in a pattern and that
    this model does not implement. *)
Definition unsupported (c : ascii) : bool :=
  existsb (Ascii.eqb c)
    ["["; "]"; "{"; "}"; "|"; "^"; "$"; "+"; "?"; "*"]%char.

Definition is_alnum (c : ascii) : bool :=
  let n := nat_of_ascii c in
  (((48 <=? n) && (n <=? 57)) || ((65 <=? n) && (n <=? 90))
   || ((97 <=? n) && (n <=? 122)))%nat.

(** [re.compile(pattern)], [None] where the pattern leaves the fragment. *)
Fixpoint parse (p : string) : option regex :=
  match p with
  | EmptyString => Some []
  | String c p' =>
      if Ascii.eqb c "(" then option_map (cons Open) (parse p')
      else if Ascii.eqb c ")" then option_map (cons Close) (parse p')
      else if Ascii.eqb c "\" then
        match p' with
        | String d p'' =>
            if is_alnum d then None
            else
              match p'' with
              | String "*" p3 => option_map (cons (Many (Chr d))) (parse p3)
              | _ => option_map (cons (One (Chr d))) (parse p'')
              end
        | EmptyString => None
        end
      else if unsupported c then None
      else
        let a := if Ascii.eqb c "." then Any else Chr c in
        match p' with
        | String "*" p'' => option_map (cons (Many a)) (parse p'')
        | _ => option_map (cons (One a)) (parse p')
        end
  end.

(** Group 1 is well formed when the pattern opens it once and closes it
    once, in this order. *)
Fixpoint groups_ok (opened closed : bool) (r : regex) : bool :=
  match r with
  | [] => Bool.eqb opened closed
  | Open :: r' => negb opened && groups_ok true closed r'
  | Close :: r' => opened && negb closed && groups_ok opened true r'
  | _ :: r' => groups_ok opened closed r'
  end.

(** Matching [r] at the start of [s].  [start] is the input where the
    group was opened, [g] the text of the group once it is closed.  The
    answer is the input left after the match and the group. *)
Fixpoint run (r : regex) (s : string) (start g : option string)
  : option (string * option string) :=
  match r with
  | [] => Some (s, g)
  | One a :: r' =>
      match s with
      | String c s' => if accepts a c then run r' s' start g else None
      | EmptyString => None
      end
  | Many a :: r' =>
      (fix many (s : string) : option (string * option string) :=
         match s with
         | String c s' =>
             if accepts a c then
               match many s' with
               | Some m => Some m
               | None => run r' s start g
               end
             else run r' s start g
         | EmptyString => run r' s start g
         end) s
  | Open :: r' => run r' s (Some s) g
  | Close :: r' =>
      run r' s start
        (match start with
         | Some s0 => Some (Str.consumed s0 s)
         | None => g
         end)
  end.

Definition match_at (r : regex) (s : string) : option (string * option string) :=
  run r s None None.

(** Scanning for the non-overlapping matches, left to right; [skip]
    counts the characters of the last match that are still to be
    passed.  A group that took no part in a match reads as [""]. *)
Fixpoint scan (r : regex) (s : string) (skip : nat) : list string :=
  match skip with
  | S n =>
      match s with
      | String _ s' => scan r s' n
      | EmptyString => []
      end
  | 0 =>
      match match_at r s with
      | Some (rest, g) =>
          match g with Some t => t | None => "" end ::
          match s with
          | String _ s' =>
              scan r s' (String.length s - String.length rest - 1)
          | EmptyString => []
          end
      | None =>
          match s with
          | String _ s' => scan r s' 0
          | EmptyString => []
          end
      end
  end.

(** [reg.findall(s)] for a pattern with one group: the text of the
    group in each match. *)
Definition findall (r : regex) (s : string) : list string := scan r s 0.

(** The language of a pattern, group marks aside: [derives r s] when
    the whole of [s] has the form [r] describes. *)
Inductive derives : regex -> string -> Prop :=
| d_nil : derives [] ""
| d_one a c r s :
    accepts a c = true -> derives r s -> derives (One a :: r) (String c s)
| d_many_stop a r s :
    derives r s -> derives (Many a :: r) s
| d_many_more a c r s :
    accepts a c = true -> derives (Many a :: r) s ->
    derives (Many a :: r) (String c s)
| d_open r s : derives r s -> derives (Open :: r) s
| d_close r s : derives r s -> derives (Close :: r) s.

(** No group is closed in [r]. *)
Fixpoint no_close (r : regex) : bool :=
  match r with
  | [] => true
  | Close :: _ => false
  | _ :: r' => no_close r'
  end.

End Re.

(** ** Exceptions, standard output and the monad of the script *)

(** A raised exception, by the name of its class. *)
Inductive exn : Type :=
| PyExc (name : string).

Inductive result (A : Type) : Type :=
| Ok (a : A)
| Raise (e : exn).

Arguments Ok {A} a.
Arguments Raise {A} e.

(** A computation reads the text written to standard output so far and
    answers a value or an exception, and the text written then. *)
Definition M (A : Type) : Type := string -> result A * string.

Definition ret {A} (a : A) : M A := fun out => (Ok a, out).

Definition bind {A B} (c : M A) (k : A -> M B) : M B :=
  fun out =>
    match c out with
    | (Ok a, out') => k a out'
    | (Raise e, out') => (Raise e, out')
    end.

Definition lift {A} (r : result A) : M A := fun out => (r, out).

(** [try: c except: h], the bare [except] that catches every exception. *)
Definition try_except {A} (c : M A) (h : M A) : M A :=
  fun out =>
    match c out with
    | (Ok a, out') => (Ok a, out')
    | (Raise _, out') => h out'
    end.

(** [print(s)] *)
Definition print (s : string) : M unit :=
  fun out => (Ok tt, out ++ s ++ String "010" "").

Notation "x <- c ;; k" := (bind c (fun x => k))
  (at level 61, c at next level, right associativity).
Notation "c ;;; k" := (bind c (fun _ => k))
  (at level 61, right associativity).

(** How the body of a [for] loop ends: at its last statement, or at [break]. *)
Inductive flow : Type :=
| Next
| Break.

(** [for x in xs: body], the variables the body assigns being [s]. *)
Fixpoint for_in {A S} (xs : list A) (s : S) (body : A -> S -> M (S * flow))
  : M S :=
  match xs with
  | [] => ret s
  | x :: xs' =>
      r <- body x s ;;
      match snd r with
      | Break => ret (fst r)
      | Next => for_in xs' (fst r) body
      end
  end.

(** [l[i]] *)
Definition subscript {A} (l : list A) (i : nat) : M A :=
  match nth_error l i with
  | Some a => ret a
  | None => lift (Raise (PyExc "IndexError"))
  end.

(** [re.compile(pattern)] *)
Definition re_compile (pattern : string) : M Re.regex :=
  match Re.parse pattern with
  | Some r =>
      if Re.groups_ok false false r then ret r
      else lift (Raise (PyExc "re.error"))
  | None => lift (Raise (PyExc "re.error"))
  end.

(** ** The repository, as GitPython shows it *)

(** A commit; [str(commit)] is its [hexsha]. *)
Record Commit : Type := { hexsha : string }.

(** A branch, a remote-tracking branch or [HEAD], by its path. *)
Record Reference : Type := { ref_path : string }.

(** An entry of a diff. *)
Record Diff : Type := {
  change_type : string;
  b_path : string
}.

Record Repo : Type := {
  refs_main : result Reference;                 (* [repo.refs.main] *)
  remotes_origin_refs_main : result Reference;  (* [repo.remotes.origin.refs.main] *)
  head : Reference;                             (* [repo.head] *)
  commit : Reference -> result Commit;          (* [ref.commit] *)
  merge_base : Reference -> Reference -> result (list Commit);
                                                (* [repo.merge_base(a, b)] *)
  diff : Commit -> Commit -> result (list Diff) (* [commit.diff(other)] *)
}.

(** ** The script *)

Definition get_new_files (repo : Repo) (base_commit : Commit)
  (commits : list Commit) : M (list string) :=
  let code_diff := [] in
  for_in commits code_diff (fun commit code_diff =>
    diffs <- lift (diff repo commit base_commit) ;;
    code_diff <-
      for_in diffs code_diff (fun diff_obj code_diff =>
        (* We always add new python files *)
        if (change_type diff_obj =? "A")
           && Str.endswith (b_path diff_obj) ".py"
        then ret ((code_diff ++ [b_path diff_obj])%list, Next)
        else ret (code_diff, Next)) ;;
    ret (code_diff, Next)).

(** Lines 74 to 77: the mainline reference. *)
Definition resolve_main (repo : Repo) : M Reference :=
  try_except
    (lift (refs_main repo))
    (lift (remotes_origin_refs_main repo)).

(** Lines 79 to 85, with [main] resolved. *)
Definition new_python_files_from (repo : Repo) (main : Reference)
  : M (list string) :=
  main_commit <- lift (commit repo main) ;;
  print ("main is at " ++ hexsha main_commit) ;;;
  head_commit <- lift (commit repo (head repo)) ;;
  print ("Current head is at " ++ hexsha head_commit) ;;;
  branching_commits <- lift (merge_base repo main (head repo)) ;;
  for_in branching_commits tt (fun commit _ =>
    print ("Branching commit: " ++ hexsha commit) ;;;
    ret (tt, Next)) ;;;
  head_commit <- lift (commit repo (head repo)) ;;
  get_new_files repo head_commit branching_commits.

(** [open_repo] is what [Repo(PATH_TO_REPO)] answers. *)
Definition get_new_python_files (open_repo : result Repo) : M (list string) :=
  repo <- lift open_repo ;;
  main <- resolve_main repo ;;
  new_python_files_from repo main.

(** The pattern of line 90, a raw string. *)
Definition pattern : string := "src/transformers/(models/.*)/modeling_.*\.py".

(** Lines 90 to 98: the value of [new_model] when the loop is left. *)
Definition extract_new_model (new_files : list string) : M string :=
  reg <- re_compile pattern ;;
  let new_model := "" in
  for_in new_files new_model (fun x new_model =>
    let find_new_model := Re.findall reg x in
    new_model <-
      (if (0 <? List.length find_new_model)%nat
       then subscript find_new_model 0
       else ret new_model) ;;
    (* It's unlikely we have 2 new modeling files in a pull request. *)
    ret (new_model, Break)).

(** Lines 90 to 100. *)
Definition report (new_files : list string) : M unit :=
  new_model <- extract_new_model new_files ;;
  let new_model := "models/bert" in
  print new_model.

(** The [__main__] block. *)
Definition main (open_repo : result Repo) : M unit :=
  new_files <- get_new_python_files open_repo ;;
  report new_files.


(** The pattern of the script, compiled. *)
Definition reg : Re.regex :=
  Eval cbv in match Re.parse pattern with Some r => r | None => [] end.

(** The test of line 56. *)
Definition added_python (d : Diff) : bool :=
  (change_type d =? "A") && Str.endswith (b_path d) ".py".

(** Each ancestor commit with its diff against [base], as far as the diffs
    can be computed: the first one that raises ends the walk. *)
Fixpoint diffs_against (repo : Repo) (base : Commit) (commits : list Commit)
  : result (list (list Diff)) :=
  match commits with
  | [] => Ok []
  | c :: cs =>
      match diff repo c base with
      | Ok ds =>
          match diffs_against repo base cs with
          | Ok dss => Ok (ds :: dss)
          | Raise e => Raise e
          end
      | Raise e => Raise e
      end
  end.

(** The lines a run writes before the last one, for the commits it found. *)
Definition diagnostics (main_commit head_commit : Commit)
  (branching_commits : list Commit) : list string :=
  ["main is at " ++ hexsha main_commit;
   "Current head is at " ++ hexsha head_commit]
  ++ map (fun c => "Branching commit: " ++ hexsha c) branching_commits.

(** ** A small repository

    A branch [main] that exists locally, a head with two merge bases,
    and the diffs of the two against the head. *)

Module Sample.

Definition main_ref : Reference := {| ref_path := "refs/heads/main" |}.
Definition head_ref : Reference := {| ref_path := "HEAD" |}.
Definition main_commit : Commit := {| hexsha := "9b1c0de" |}.
Definition head_commit : Commit := {| hexsha := "4e77a2f" |}.
Definition base1 : Commit := {| hexsha := "0a5d3c1" |}.
Definition base2 : Commit := {| hexsha := "c41f9e8" |}.

Definition diffs (c : Commit) : list Diff :=
  if hexsha c =? "0a5d3c1" then
    [ {| change_type := "A";
         b_path := "src/transformers/models/gemma/modeling_gemma.py" |};
      {| change_type := "M"; b_path := "setup.py" |};
      {| change_type := "A"; b_path := "docs/source/en/model_doc/gemma.md" |} ]
  else
    [ {| change_type := "A"; b_path := "tests/models/gemma/test_modeling_gemma.py" |};
      {| change_type := "D"; b_path := "utils/old_check.py" |};
      {| change_type := "A";
         b_path := "src/transformers/models/gemma/modeling_gemma.py" |} ].

Definition repo : Repo := {|
  refs_main := Ok main_ref;
  remotes_origin_refs_main := Raise (PyExc "AttributeError");
  head := head_ref;
  commit := fun r =>
    if ref_path r =? "HEAD" then Ok head_commit else Ok main_commit;
  merge_base := fun _ _ => Ok [base1; base2];
  diff := fun c _ => Ok (diffs c)
|}.

End Sample.

(** ** Repositories that fail

    The small repository again, with one call that raises: the merge
    base, or the diff of the second merge base. *)

Module Faulty.

Definition no_merge_base : Repo := {|
  refs_main := refs_main Sample.repo;
  remotes_origin_refs_main := remotes_origin_refs_main Sample.repo;
  head := head Sample.repo;
  commit := commit Sample.repo;
  merge_base := fun _ _ => Raise (PyExc "GitCommandError");
  diff := diff Sample.repo
|}.

Definition no_diff : Repo := {|
  refs_main := refs_main Sample.repo;
  remotes_origin_refs_main := remotes_origin_refs_main Sample.repo;
  head := head Sample.repo;
  commit := commit Sample.repo;
  merge_base := merge_base Sample.repo;
  diff := fun c _ =>
    if hexsha c =? "c41f9e8" then Raise (PyExc "GitCommandError")
    else Ok (Sample.diffs c)
|}.

End Faulty.

(** ** A repository without new files

    One merge base, whose diff against the head has Python files that
    were modified, deleted and renamed, and none that was added. *)

Module Edits.

Definition diffs (c : Commit) : list Diff :=
  [ {| change_type := "M";
       b_path := "src/transformers/models/bert/modeling_bert.py" |};
    {| change_type := "D"; b_path := "utils/old_check.py" |};
    {| change_type := "R";
       b_path := "src/transformers/models/gemma/modeling_gemma.py" |} ].

Definition repo : Repo := {|
  refs_main := refs_main Sample.repo;
  remotes_origin_refs_main := remotes_origin_refs_main Sample.repo;
  head := head Sample.repo;
  commit := commit Sample.repo;
  merge_base := fun _ _ => Ok [Sample.base1];
  diff := fun c _ => Ok (diffs c)
|}.

End Edits.

(** [c in s], for a character [c]. *)
Fixpoint has_char (c : ascii) (s : string) : bool :=
  match s with
  | EmptyString => false
  | String d s' => Ascii.eqb d c || has_char c s'
  end.

(** * Properties *)

(** ** Strings *)

Module StrFacts.
Import Str.

Lemma append_nil_r (s : string) : s ++ "" = s.
Proof. induction s as [|c s IH]; simpl; [reflexivity | now rewrite IH]. Qed.

Lemma append_assoc (s t u : string) : (s ++ t) ++ u = s ++ (t ++ u).
Proof. induction s as [|c s IH]; simpl; [reflexivity | now rewrite IH]. Qed.

Lemma length_append (s t : string) :
  String.length (s ++ t) = String.length s + String.length t.
Proof. induction s as [|c s IH]; simpl; [reflexivity | now rewrite IH]. Qed.

(** Concatenations nested to the right, literals pushed through. *)
Ltac flatten :=
  repeat first [rewrite append_assoc | progress cbn [append]].

Lemma substring_whole (s t : string) :
  substring 0 (String.length s) (s ++ t) = s.
Proof. induction s as [|c s IH]; simpl; [now destruct t | now rewrite IH]. Qed.

(** What a match that stopped at [rest] went over. *)
Lemma consumed_app (s rest : string) : consumed (s ++ rest) rest = s.
Proof.
  unfold consumed. rewrite length_append.
  replace (String.length s + String.length rest - String.length rest)
    with (String.length s) by lia.
  apply substring_whole.
Qed.

Lemma endswith_app (p suffix : string) : endswith (p ++ suffix) suffix = true.
Proof.
  induction p as [|c p IH]; cbn [endswith append].
  - destruct suffix; cbn [endswith]; rewrite String.eqb_refl; reflexivity.
  - rewrite IH. apply orb_true_r.
Qed.

(** [endswith] is true of the strings that have the suffix at their end,
    and of no other. *)
Lemma endswith_spec (s suffix : string) :
  endswith s suffix = true <-> exists p, s = p ++ suffix.
Proof.
  split.
  - induction s as [|c s IH]; cbn [endswith]; intros H.
    + apply orb_true_iff in H as [H | H]; [|discriminate].
      apply String.eqb_eq in H. exists "". now subst.
    + apply orb_true_iff in H as [H | H].
      * apply String.eqb_eq in H. exists "". now subst.
      * destruct (IH H) as [p ->]. now exists (String c p).
  - intros [p ->]. apply endswith_app.
Qed.

Lemma count_lines_app (s t : string) :
  count_lines (s ++ t) = count_lines s + count_lines t.
Proof. induction s as [|c s IH]; simpl; [reflexivity | rewrite IH; lia]. Qed.

Lemma count_lines_unlines (ls : list string) :
  Forall (fun l => count_lines l = 0) ls ->
  count_lines (unlines ls) = List.length ls.
Proof.
  induction 1 as [|l ls Hl _ IH]; simpl; [reflexivity|].
  rewrite count_lines_app, Hl. simpl. now rewrite IH.
Qed.

Lemma unlines_app (ls ms : list string) :
  unlines (ls ++ ms)%list = unlines ls ++ unlines ms.
Proof.
  induction ls as [|l ls IH]; simpl; [reflexivity|].
  rewrite IH, append_assoc. reflexivity.
Qed.

End StrFacts.

(** ** The matcher *)

Module ReFacts.
Import Re.

Section Run.

Variable a : atom.
Variable r : regex.
Variables start g : option string.

(** The equations of [run] at a starred atom. *)
Lemma run_many_nil : run (Many a :: r) "" start g = run r "" start g.
Proof. reflexivity. Qed.

Lemma run_many_cons (c : ascii) (s : string) :
  run (Many a :: r) (String c s) start g =
  if accepts a c then
    match run (Many a :: r) s start g with
    | Some m => Some m
    | None => run r (String c s) start g
    end
  else run r (String c s) start g.
Proof. reflexivity. Qed.

Lemma run_open (s : string) :
  run (Open :: r) s start g = run r s (Some s) g.
Proof. reflexivity. Qed.

Lemma run_close (s s0 : string) :
  run (Close :: r) s (Some s0) g = run r s (Some s0) (Some (Str.consumed s0 s)).
Proof. reflexivity. Qed.

Lemma run_nil (s : string) :
  run [] s start g = Some (s, g).
Proof. reflexivity. Qed.

(** A star that can stop at once lets the rest of the pattern match. *)
Lemma run_many_stop (s : string) :
  run r s start g <> None -> run (Many a :: r) s start g <> None.
Proof.
  intros H. destruct s as [|c s].
  - now rewrite run_many_nil.
  - rewrite run_many_cons. destruct (accepts a c); [|assumption].
    destruct (run (Many a :: r) s start g); [discriminate | assumption].
Qed.

(** A star reaches every place where it can stop and the rest of the
    pattern matches. *)
Lemma run_many_reach (s1 s2 : string) :
  every a s1 = true -> run r s2 start g <> None ->
  run (Many a :: r) (s1 ++ s2) start g <> None.
Proof.
  induction s1 as [|c s1 IH]; cbn [append every]; intros E H.
  - now apply run_many_stop.
  - apply andb_true_iff in E as (Ec & E).
    rewrite run_many_cons, Ec.
    destruct (run (Many a :: r) (s1 ++ s2) start g) eqn:R; [discriminate|].
    now elim (IH E H).
Qed.

(** Where a star matched, it went over characters it accepts, the rest
    of the pattern matched the tail, and the star is greedy: it stopped
    at the last place where the rest of the pattern matches. *)
Lemma run_many_inv (s : string) m :
  run (Many a :: r) s start g = Some m ->
  exists s1 s2,
    s = s1 ++ s2 /\ run r s2 start g = Some m /\ every a s1 = true /\
    (forall t1 t2,
       s = t1 ++ t2 -> every a t1 = true -> run r t2 start g <> None ->
       String.length t1 <= String.length s1).
Proof.
  induction s as [|c s IH].
  - rewrite run_many_nil. intros H. exists "", "". repeat split; trivial.
    intros [|d t1] t2 E _ _; [reflexivity | discriminate].
  - rewrite run_many_cons. destruct (accepts a c) eqn:Hc.
    + destruct (run (Many a :: r) s start g) as [m'|] eqn:E.
      * intros H. injection H as <-.
        destruct (IH eq_refl) as (s1 & s2 & -> & H2 & H3 & H4).
        exists (String c s1), s2. cbn [every]. rewrite Hc, H3.
        repeat split; trivial.
        intros [|d t1] t2 Et Ea Hr; cbn [String.length]; [lia|].
        injection Et as <- Et. cbn [every] in Ea.
        apply andb_true_iff in Ea as (_ & Ea).
        specialize (H4 t1 t2 Et Ea Hr). lia.
      * intros H. exists "", (String c s). repeat split; trivial.
        intros [|d t1] t2 Et Ea Hr; [reflexivity|].
        injection Et as <- ->. cbn [every] in Ea.
        apply andb_true_iff in Ea as (_ & Ea).
        now elim (run_many_reach t1 t2 Ea Hr).
    + intros H. exists "", (String c s). repeat split; trivial.
      intros [|d t1] t2 Et Ea Hr; [reflexivity|].
      injection Et as <- _. cbn [every] in Ea. rewrite Hc in Ea. discriminate.
Qed.

Lemma run_one_inv (c : ascii) (s : string) m :
  run (One (Chr c) :: r) s start g = Some m ->
  exists s', s = String c s' /\ run r s' start g = Some m.
Proof.
  destruct s as [|d s]; simpl; [discriminate|].
  destruct (Ascii.eqb_spec d c) as [->|]; [|discriminate].
  intros H. now exists s.
Qed.

End Run.

(** The texts [.] goes over are the texts without a newline. *)
Lemma every_any (s : string) :
  every Any s = true <-> Str.count_lines s = 0.
Proof.
  induction s as [|c s IH]; cbn [every Str.count_lines accepts].
  - tauto.
  - destruct (Ascii.eqb c "010"); cbn [negb andb]; [|exact IH].
    split; [discriminate | intros H; inversion H].
Qed.

(** The backtracking search is complete: it finds a match at the start
    of every input that begins with a string of the pattern's language
    (perhaps a longer or a shorter one than that string). *)
Lemma run_complete (r : regex) (s1 : string) :
  derives r s1 ->
  forall s2 start g, run r (s1 ++ s2) start g <> None.
Proof.
  induction 1 as [|a c r s Hc _ IH|a r s _ IH|a c r s Hc _ IH
                 |r s _ IH|r s _ IH]; intros s2 start g.
  - discriminate.
  - simpl. rewrite Hc. apply IH.
  - apply run_many_stop, IH.
  - cbn [append]. rewrite run_many_cons, Hc.
    specialize (IH s2 start g).
    destruct (run (Many a :: r) (s ++ s2) start g); [discriminate|].
    now elim IH.
  - simpl. apply IH.
  - simpl. apply IH.
Qed.

(** [.*] goes over any text without a newline. *)
Lemma derives_many_any (r : regex) (s1 s2 : string) :
  Str.count_lines s1 = 0 ->
  derives (Many Any :: r) s2 -> derives (Many Any :: r) (s1 ++ s2).
Proof.
  induction s1 as [|c s1 IH]; cbn [append Str.count_lines]; intros H D.
  - exact D.
  - destruct (Ascii.eqb c "010") eqn:E; [discriminate|].
    apply d_many_more; [simpl; now rewrite E | now apply IH].
Qed.

(** A pattern that closes no group leaves the group as it was. *)
Lemma run_no_close (r : regex) :
  no_close r = true ->
  forall s start g rest g',
    run r s start g = Some (rest, g') -> g' = g.
Proof.
  induction r as [|[a|a| |] r IH]; intros Hr s start g rest g'.
  - simpl. now intros [= _ <-].
  - destruct s as [|c s]; simpl; [discriminate|].
    destruct (accepts a c); [|discriminate]. apply (IH Hr).
  - intros H. apply run_many_inv in H as (_ & s2 & _ & H & _).
    apply (IH Hr _ _ _ _ _ H).
  - simpl. apply (IH Hr).
  - discriminate.
Qed.

(** The first match found by the scan is a match at some place of the
    input, when there is a match at all. *)
Lemma scan_first (r : regex) (s1 s2 : string) :
  match_at r s2 <> None ->
  exists s rest g tl,
    match_at r s = Some (rest, g) /\
    scan r (s1 ++ s2) 0 = match g with Some t => t | None => "" end :: tl.
Proof.
  intros H. induction s1 as [|c s1 IH].
  - cbn [append]. destruct (match_at r s2) as [[rest g]|] eqn:E; [|now elim H].
    exists s2, rest, g.
    destruct s2; simpl; rewrite E; eauto.
  - cbn [append].
    destruct (match_at r (String c (s1 ++ s2))) as [[rest g]|] eqn:E.
    + exists (String c (s1 ++ s2)), rest, g. simpl. rewrite E. eauto.
    + destruct IH as (s & rest & g & tl & Hm & Hs).
      exists s, rest, g, tl. split; [assumption|].
      simpl. rewrite E. exact Hs.
Qed.

(** A match at the start of the input is the first one found. *)
Lemma scan_head (r : regex) (s rest : string) (g : option string) :
  match_at r s = Some (rest, g) ->
  exists tl, scan r s 0 = match g with Some t => t | None => "" end :: tl.
Proof.
  intros H. destruct s; simpl; rewrite H; eauto.
Qed.

(** When no place of the input has a match, nothing is found. *)
Lemma scan_none (r : regex) (s : string) :
  (forall s1 s2, s = s1 ++ s2 -> match_at r s2 = None) ->
  scan r s 0 = [].
Proof.
  induction s as [|c s IH]; intros H.
  - simpl. now rewrite (H "" "" eq_refl).
  - simpl. rewrite (H "" (String c s) eq_refl).
    apply IH. intros s1 s2 ->. now apply (H (String c s1) s2).
Qed.

End ReFacts.

(** ** The pattern of the script *)

Module Pattern.
Import Re.

Lemma compiled : re_compile pattern = ret reg.
Proof. reflexivity. Qed.

(** Paths of the form the pattern describes are in its language. *)
Lemma reg_derives (name x : string) :
  Str.count_lines name = 0 -> Str.count_lines x = 0 ->
  derives reg
    ("src/transformers/models/" ++ name ++ "/modeling_" ++ x ++ ".py").
Proof.
  intros Hn Hx. unfold reg. cbn [append].
  repeat (apply d_one; [reflexivity|]). apply d_open.
  repeat (apply d_one; [reflexivity|]).
  apply ReFacts.derives_many_any; [assumption|].
  apply d_many_stop, d_close.
  repeat (apply d_one; [reflexivity|]).
  apply ReFacts.derives_many_any; [assumption|].
  apply d_many_stop.
  repeat (apply d_one; [reflexivity|]). apply d_nil.
Qed.

Ltac literal H :=
  let s := fresh "s" in
  let E := fresh "E" in
  apply ReFacts.run_one_inv in H as (s & E & H); subst.

(** The part of the pattern after [.*] in the group. *)
Lemma reg_tail_derives (x : string) :
  Str.count_lines x = 0 ->
  derives (skipn 26 reg) ("/modeling_" ++ x ++ ".py").
Proof.
  intros Hx. cbn [skipn reg append]. apply d_close.
  repeat (apply d_one; [reflexivity|]).
  apply ReFacts.derives_many_any; [assumption|].
  apply d_many_stop.
  repeat (apply d_one; [reflexivity|]). apply d_nil.
Qed.

(** A match of the pattern goes over a text of the form it describes,
    its group is the [models/...] part of that text, and the name in it
    is the longest that a reading of the input in that form allows. *)
Lemma match_at_inv (s rest : string) (g : option string) :
  match_at reg s = Some (rest, g) ->
  exists name x,
    s = "src/transformers/models/" ++ name ++ "/modeling_" ++ x ++ ".py"
        ++ rest /\
    g = Some ("models/" ++ name) /\
    Str.count_lines name = 0 /\ Str.count_lines x = 0 /\
    (forall name0 x0 rest0,
       Str.count_lines name0 = 0 -> Str.count_lines x0 = 0 ->
       s = "src/transformers/models/" ++ name0 ++ "/modeling_" ++ x0
           ++ ".py" ++ rest0 ->
       String.length name0 <= String.length name).
Proof.
  unfold match_at, reg. intros H.
  do 17 literal H. rewrite ReFacts.run_open in H. do 7 literal H.
  apply ReFacts.run_many_inv in H as (name & t & -> & H & Hn & Max).
  rewrite ReFacts.run_close in H. do 10 literal H.
  apply ReFacts.run_many_inv in H as (x & u & -> & H & Hx & _).
  do 3 literal H. rewrite ReFacts.run_nil in H. injection H as -> <-.
  apply ReFacts.every_any in Hn, Hx.
  exists name, x. repeat split; auto.
  - f_equal.
    exact (StrFacts.consumed_app ("models/" ++ name)
             ("/modeling_" ++ x ++ ".py" ++ rest)).
  - intros name0 x0 rest0 Hn0 Hx0 E. cbn [append] in E. injection E as E.
    apply (Max name0 _ E); [now apply ReFacts.every_any|].
    pose proof (ReFacts.run_complete _ _ (reg_tail_derives x0 Hx0) rest0) as C.
    replace (("/modeling_" ++ x0 ++ ".py") ++ rest0)
      with ("/modeling_" ++ x0 ++ ".py" ++ rest0) in C
      by (StrFacts.flatten; reflexivity).
    apply C.
Qed.

(** A path with a text of that form somewhere in it has a match, and the
    group of the first match found is some [models/...]. *)
Lemma findall_infix (pre name x post : string) :
  Str.count_lines name = 0 -> Str.count_lines x = 0 ->
  exists name' tl,
    findall reg
      (pre ++ "src/transformers/models/" ++ name ++ "/modeling_" ++ x
           ++ ".py" ++ post)
    = ("models/" ++ name') :: tl.
Proof.
  intros Hn Hx.
  assert (H : match_at reg
                (("src/transformers/models/" ++ name ++ "/modeling_" ++ x
                  ++ ".py") ++ post) <> None)
    by (apply ReFacts.run_complete, reg_derives; assumption).
  replace (("src/transformers/models/" ++ name ++ "/modeling_" ++ x
            ++ ".py") ++ post)
    with ("src/transformers/models/" ++ name ++ "/modeling_" ++ x
          ++ ".py" ++ post) in H
    by (StrFacts.flatten; reflexivity).
  destruct (ReFacts.scan_first reg pre _ H) as (s & rest & g & tl & Hm & Hs).
  apply match_at_inv in Hm as (name' & x' & _ & -> & _).
  exists name', tl. exact Hs.
Qed.

(** A path that begins with a text of that form has its first match at
    its start, and the name captured is at least as long as [name]. *)
Lemma findall_at_start (name x post : string) :
  Str.count_lines name = 0 -> Str.count_lines x = 0 ->
  exists name' tl,
    findall reg
      ("src/transformers/models/" ++ name ++ "/modeling_" ++ x ++ ".py"
       ++ post)
    = ("models/" ++ name') :: tl /\
    String.length name <= String.length name'.
Proof.
  intros Hn Hx.
  pose proof (ReFacts.run_complete _ _ (reg_derives name x Hn Hx) post
                None None) as H.
  replace (("src/transformers/models/" ++ name ++ "/modeling_" ++ x
            ++ ".py") ++ post)
    with ("src/transformers/models/" ++ name ++ "/modeling_" ++ x
          ++ ".py" ++ post) in H
    by (StrFacts.flatten; reflexivity).
  fold (match_at reg
          ("src/transformers/models/" ++ name ++ "/modeling_" ++ x
           ++ ".py" ++ post)) in H.
  destruct (match_at reg
              ("src/transformers/models/" ++ name ++ "/modeling_" ++ x
               ++ ".py" ++ post)) as [[rest g]|] eqn:E; [|now elim H].
  destruct (ReFacts.scan_head _ _ _ _ E) as (tl & Hs).
  apply match_at_inv in E as (name' & x' & _ & -> & _ & _ & Max).
  exists name', tl. split; [exact Hs|].
  exact (Max name x post Hn Hx eq_refl).
Qed.

(** Nothing is found exactly in the paths that have no such text in them. *)
Lemma findall_nil_iff (s : string) :
  findall reg s = [] <->
  forall pre name x post,
    Str.count_lines name = 0 -> Str.count_lines x = 0 ->
    s <> pre ++ "src/transformers/models/" ++ name ++ "/modeling_" ++ x
         ++ ".py" ++ post.
Proof.
  split.
  - intros H pre name x post Hn Hx ->.
    destruct (findall_infix pre name x post Hn Hx) as (name' & tl & E).
    rewrite E in H. discriminate.
  - intros H. apply ReFacts.scan_none. intros s1 s2 ->.
    destruct (match_at reg s2) as [[rest g]|] eqn:E; [|reflexivity].
    apply match_at_inv in E as (name & x & -> & _ & Hn & Hx & _).
    now elim (H s1 name x rest Hn Hx).
Qed.

End Pattern.

(** ** The extraction loop *)

Section Extraction.

Variable out : string.

(** The loop is left at the end of its first round: the value of
    [new_model] is decided by the first new file alone. *)
Lemma extract_new_model_eq (new_files : list string) :
  extract_new_model new_files out =
  (Ok match new_files with
      | [] => ""
      | x :: _ => hd "" (Re.findall reg x)
      end, out).
Proof.
  unfold extract_new_model. rewrite Pattern.compiled.
  destruct new_files as [|x l]; [reflexivity|].
  unfold bind, ret. cbn [for_in]. unfold bind, ret.
  destruct (Re.findall reg x) as [|t ts]; reflexivity.
Qed.

Lemma report_eq (new_files : list string) :
  report new_files out = (Ok tt, out ++ Str.unlines ["models/bert"]).
Proof.
  unfold report, bind. rewrite extract_new_model_eq. reflexivity.
Qed.

End Extraction.

(** ** Collecting the new files *)

Lemma added_python_spec (d : Diff) :
  added_python d = true <->
  change_type d = "A" /\ exists p, b_path d = p ++ ".py".
Proof.
  unfold added_python. rewrite andb_true_iff, String.eqb_eq.
  now rewrite StrFacts.endswith_spec.
Qed.

Section GetNewFiles.

Variable repo : Repo.
Variable base_commit : Commit.
Variable out : string.

Lemma inner_loop (diffs : list Diff) (code_diff : list string) :
  for_in diffs code_diff (fun diff_obj code_diff =>
    if (change_type diff_obj =? "A") && Str.endswith (b_path diff_obj) ".py"
    then ret ((code_diff ++ [b_path diff_obj])%list, Next)
    else ret (code_diff, Next)) out =
  (Ok (code_diff ++ map b_path (filter added_python diffs))%list, out).
Proof.
  revert code_diff.
  induction diffs as [|d diffs IH]; intros code_diff; cbn [for_in].
  - unfold ret. now rewrite app_nil_r.
  - unfold bind. cbn [filter]. unfold added_python at 1.
    destruct ((change_type d =? "A") && Str.endswith (b_path d) ".py");
      unfold ret at 1; cbn [fst snd]; rewrite IH.
    + cbn [map]. now rewrite <- app_assoc.
    + reflexivity.
Qed.

Lemma outer_loop (commits : list Commit) (code_diff : list string) :
  for_in commits code_diff (fun commit code_diff =>
    diffs <- lift (diff repo commit base_commit) ;;
    code_diff <-
      for_in diffs code_diff (fun diff_obj code_diff =>
        if (change_type diff_obj =? "A")
           && Str.endswith (b_path diff_obj) ".py"
        then ret ((code_diff ++ [b_path diff_obj])%list, Next)
        else ret (code_diff, Next)) ;;
    ret (code_diff, Next)) out =
  (match diffs_against repo base_commit commits with
   | Ok dss =>
       Ok (code_diff
           ++ flat_map (fun ds => map b_path (filter added_python ds)) dss)%list
   | Raise e => Raise e
   end, out).
Proof.
  revert code_diff.
  induction commits as [|c cs IH]; intros code_diff;
    cbn [for_in diffs_against].
  - unfold ret. cbn [flat_map]. now rewrite app_nil_r.
  - unfold bind at 1 2, lift.
    destruct (diff repo c base_commit) as [ds|e]; [|reflexivity].
    unfold bind at 1. rewrite inner_loop. unfold ret at 1. cbn [fst snd].
    rewrite IH.
    destruct (diffs_against repo base_commit cs) as [dss|e]; [|reflexivity].
    cbn [flat_map]. now rewrite app_assoc.
Qed.

(** [get_new_files] walks every commit and every entry of its diff,
    keeps the paths of the added Python files in the order it meets
    them, and writes nothing. *)
Lemma get_new_files_eq (commits : list Commit) :
  get_new_files repo base_commit commits out =
  (match diffs_against repo base_commit commits with
   | Ok dss =>
       Ok (flat_map (fun ds => map b_path (filter added_python ds)) dss)
   | Raise e => Raise e
   end, out).
Proof.
  unfold get_new_files. exact (outer_loop commits []).
Qed.

Lemma diffs_against_ok (commits : list Commit) (ds : Commit -> list Diff) :
  (forall c, In c commits -> diff repo c base_commit = Ok (ds c)) ->
  diffs_against repo base_commit commits = Ok (map ds commits).
Proof.
  induction commits as [|c cs IH]; intros H; cbn [diffs_against map].
  - reflexivity.
  - rewrite (H c (or_introl eq_refl)), IH; [reflexivity|].
    intros c' Hc'. apply H. now right.
Qed.

End GetNewFiles.

(** ** The walk from the repository to the new files *)

Section Walk.

Variable repo : Repo.

Lemma print_loop (commits : list Commit) (out : string) :
  for_in commits tt (fun commit _ =>
    print ("Branching commit: " ++ hexsha commit) ;;;
    ret (tt, Next)) out =
  (Ok tt,
   out ++ Str.unlines (map (fun c => "Branching commit: " ++ hexsha c) commits)).
Proof.
  revert out. induction commits as [|c cs IH]; intros out; cbn [for_in].
  - unfold ret. cbn [map Str.unlines]. now rewrite StrFacts.append_nil_r.
  - unfold bind at 1 2, print, ret at 1. cbn [fst snd]. rewrite IH.
    cbn [map Str.unlines]. f_equal. StrFacts.flatten. reflexivity.
Qed.

(** With the three lookups answered, the function writes its diagnostics
    and goes on to [get_new_files] with the head commit. *)
Lemma new_python_files_from_eq (main : Reference) (m h : Commit)
  (bases : list Commit) (out : string) :
  commit repo main = Ok m ->
  commit repo (head repo) = Ok h ->
  merge_base repo main (head repo) = Ok bases ->
  new_python_files_from repo main out =
  get_new_files repo h bases (out ++ Str.unlines (diagnostics m h bases)).
Proof.
  intros Hm Hh Hb. unfold new_python_files_from.
  unfold bind at 1, lift at 1. rewrite Hm.
  unfold bind at 1, print at 1.
  unfold bind at 1, lift at 1. rewrite Hh.
  unfold bind at 1, print at 1.
  unfold bind at 1, lift at 1. rewrite Hb.
  unfold bind at 1. rewrite print_loop.
  unfold bind at 1, lift at 1.
  f_equal. unfold diagnostics. rewrite StrFacts.unlines_app.
  cbn [Str.unlines]. StrFacts.flatten. reflexivity.
Qed.

(** It returns only where the three lookups were answered. *)
Lemma new_python_files_from_inv (main : Reference) (out out' : string)
  (new_files : list string) :
  new_python_files_from repo main out = (Ok new_files, out') ->
  exists m h bases,
    commit repo main = Ok m /\
    commit repo (head repo) = Ok h /\
    merge_base repo main (head repo) = Ok bases.
Proof.
  unfold new_python_files_from.
  unfold bind at 1, lift at 1.
  destruct (commit repo main) as [m|e]; [|discriminate].
  unfold bind at 1, print at 1.
  unfold bind at 1, lift at 1.
  destruct (commit repo (head repo)) as [h|e]; [|discriminate].
  unfold bind at 1, print at 1.
  unfold bind at 1, lift at 1.
  destruct (merge_base repo main (head repo)) as [bases|e]; [|discriminate].
  intros _. now exists m, h, bases.
Qed.

Lemma resolve_main_eq (out : string) :
  resolve_main repo out =
  (match refs_main repo with
   | Ok local => Ok local
   | Raise _ => remotes_origin_refs_main repo
   end, out).
Proof.
  unfold resolve_main, try_except, lift.
  destruct (refs_main repo); reflexivity.
Qed.

Lemma get_new_python_files_eq (out : string) :
  get_new_python_files (Ok repo) out =
  match refs_main repo with
  | Ok local => new_python_files_from repo local out
  | Raise _ =>
      match remotes_origin_refs_main repo with
      | Ok remote => new_python_files_from repo remote out
      | Raise e => (Raise e, out)
      end
  end.
Proof.
  unfold get_new_python_files. unfold bind at 1, lift at 1.
  unfold bind at 1. rewrite resolve_main_eq.
  destruct (refs_main repo) as [local|e1]; [reflexivity|].
  destruct (remotes_origin_refs_main repo); reflexivity.
Qed.

End Walk.

(** ** A run of the whole script *)

(** A run ends normally only where the repository opened and every
    lookup and every diff was answered. *)
Lemma main_ok_inv (open_repo : result Repo) (out out' : string) :
  main open_repo out = (Ok tt, out') ->
  exists repo mainline m h bases dss,
    open_repo = Ok repo /\
    resolve_main repo out = (Ok mainline, out) /\
    commit repo mainline = Ok m /\
    commit repo (head repo) = Ok h /\
    merge_base repo mainline (head repo) = Ok bases /\
    diffs_against repo h bases = Ok dss.
Proof.
  unfold main. unfold bind at 1.
  destruct (get_new_python_files open_repo out) as [[new_files|e] out1] eqn:G;
    [intros _ | discriminate].
  unfold get_new_python_files in G. unfold bind at 1, lift at 1 in G.
  destruct open_repo as [repo|e]; [|discriminate].
  unfold bind at 1 in G.
  destruct (resolve_main repo out) as [[mainline|e] out2] eqn:R; [|discriminate].
  rewrite resolve_main_eq in R. injection R as R <-.
  destruct (new_python_files_from_inv _ _ _ _ _ G) as (m & h & bases & Hm & Hh & Hb).
  rewrite (new_python_files_from_eq _ _ _ _ _ _ Hm Hh Hb), get_new_files_eq in G.
  destruct (diffs_against repo h bases) as [dss|e] eqn:D; [|discriminate].
  exists repo, mainline, m, h, bases, dss.
  rewrite resolve_main_eq, R. repeat split; assumption.
Qed.

(** * The statements of the specification *)

(** C1. For every list of new files, whether or not a path of it matched
    and whatever the loop captured, the value printed on the last line
    is the constant [models/bert]. *)
Theorem final_value_is_models_bert (new_files : list string) (out : string) :
  exists captured,
    extract_new_model new_files out = (Ok captured, out) /\
    report new_files out = (Ok tt, out ++ "models/bert" ++ String "010" "").
Proof.
  eexists. split; [apply extract_new_model_eq | apply report_eq].
Qed.

(** C2, at an input where it fails.  The first new file is the package's
    [__init__.py], the second the modeling file: the modeling file has a
    match, yet the loop was left after the first file and nothing is
    captured. *)
Theorem later_match_not_captured :
  Re.findall reg "src/transformers/models/foo/__init__.py" = [] /\
  Re.findall reg "src/transformers/models/foo/modeling_foo.py" = ["models/foo"] /\
  extract_new_model
    ["src/transformers/models/foo/__init__.py";
     "src/transformers/models/foo/modeling_foo.py"] "" = (Ok "", "").
Proof. repeat split; vm_compute; reflexivity. Qed.

(** C3. Where the diff of every ancestor commit against the head is
    answered, [get_new_files] returns, commit after commit and entry
    after entry, the [b_path] of the entries whose change type is ["A"]
    and whose path ends with [".py"]: every commit is gone through,
    nothing is dropped as a duplicate and nothing is sorted. *)
Theorem get_new_files_collects (repo : Repo) (base_commit : Commit)
  (commits : list Commit) (ds : Commit -> list Diff) (out : string) :
  (forall c, In c commits -> diff repo c base_commit = Ok (ds c)) ->
  get_new_files repo base_commit commits out =
    (Ok (flat_map (fun c => map b_path (filter added_python (ds c))) commits),
     out) /\
  (forall p,
     In p (flat_map (fun c => map b_path (filter added_python (ds c))) commits)
     <->
     exists c d,
       In c commits /\ In d (ds c) /\ change_type d = "A" /\
       (exists q, b_path d = q ++ ".py") /\ b_path d = p).
Proof.
  intros H. split.
  - rewrite get_new_files_eq, (diffs_against_ok _ _ _ _ H).
    do 2 f_equal. clear H.
    induction commits as [|c cs IH]; cbn [map flat_map];
      [reflexivity | now rewrite IH].
  - intros p. rewrite in_flat_map. split.
    + intros (c & Hc & Hp). apply in_map_iff in Hp as (d & <- & Hd).
      apply filter_In in Hd as (Hd & Ha).
      apply added_python_spec in Ha as (Ha & Hq).
      now exists c, d.
    + intros (c & d & Hc & Hd & Ha & Hq & <-).
      exists c. split; [assumption|].
      apply in_map, filter_In. split; [assumption|].
      now apply added_python_spec.
Qed.

Lemma get_new_files_collects_witness :
  (forall c, In c [Sample.base1; Sample.base2] ->
             diff Sample.repo c Sample.head_commit = Ok (Sample.diffs c)) /\
  get_new_files Sample.repo Sample.head_commit [Sample.base1; Sample.base2] ""
  = (Ok ["src/transformers/models/gemma/modeling_gemma.py";
         "tests/models/gemma/test_modeling_gemma.py";
         "src/transformers/models/gemma/modeling_gemma.py"], "").
Proof.
  assert (H : forall c, In c [Sample.base1; Sample.base2] ->
                diff Sample.repo c Sample.head_commit = Ok (Sample.diffs c))
    by (intros c _; reflexivity).
  split; [exact H|].
  exact (proj1 (get_new_files_collects Sample.repo Sample.head_commit
                  [Sample.base1; Sample.base2] Sample.diffs "" H)).
Defined.

(** C4. The local branch [main] is used whenever it is there; where it is
    not, the remote-tracking [origin/main] is; where that fails too, its
    exception is raised by [get_new_python_files] and by the script, with
    nothing written. *)
Theorem mainline_resolution (repo : Repo) (out : string) :
  match refs_main repo with
  | Ok local =>
      resolve_main repo out = (Ok local, out) /\
      get_new_python_files (Ok repo) out = new_python_files_from repo local out
  | Raise _ =>
      match remotes_origin_refs_main repo with
      | Ok remote =>
          resolve_main repo out = (Ok remote, out) /\
          get_new_python_files (Ok repo) out
          = new_python_files_from repo remote out
      | Raise e =>
          resolve_main repo out = (Raise e, out) /\
          get_new_python_files (Ok repo) out = (Raise e, out) /\
          main (Ok repo) out = (Raise e, out)
      end
  end.
Proof.
  pose proof (resolve_main_eq repo out) as R.
  pose proof (get_new_python_files_eq repo out) as G.
  destruct (refs_main repo) as [local|e1]; [now split|].
  destruct (remotes_origin_refs_main repo) as [remote|e2]; [now split|].
  repeat split; try assumption.
  unfold main, bind. now rewrite G.
Qed.

(** C5. With the modeling file of [foo] as the only new file, the loop
    captures [models/foo]. *)
Theorem extraction_of_modeling_foo (out : string) :
  extract_new_model ["src/transformers/models/foo/modeling_foo.py"] out
  = (Ok "models/foo", out).
Proof. rewrite extract_new_model_eq. reflexivity. Qed.

(** C6. Where no new file has a match (the empty list too), nothing is
    raised: the loop ends with [new_model] still empty, and the script
    goes on to print its last line. *)
Theorem no_match_is_not_an_error (new_files : list string) (out : string) :
  (forall x, In x new_files -> Re.findall reg x = []) ->
  extract_new_model new_files out = (Ok "", out) /\
  report new_files out = (Ok tt, out ++ "models/bert" ++ String "010" "").
Proof.
  intros H. split; [|apply report_eq].
  rewrite extract_new_model_eq. destruct new_files as [|x l]; [reflexivity|].
  now rewrite (H x (or_introl eq_refl)).
Qed.

Lemma no_match_is_not_an_error_witness :
  (forall x,
     In x ["setup.py"; "src/transformers/models/foo/configuration_foo.py"] ->
     Re.findall reg x = []) /\
  extract_new_model
    ["setup.py"; "src/transformers/models/foo/configuration_foo.py"] ""
  = (Ok "", "") /\
  report ["setup.py"; "src/transformers/models/foo/configuration_foo.py"] ""
  = (Ok tt, "models/bert" ++ String "010" "").
Proof.
  assert (H : forall x,
            In x ["setup.py";
                  "src/transformers/models/foo/configuration_foo.py"] ->
            Re.findall reg x = [])
    by (intros x [<-|[<-|[]]]; reflexivity).
  split; [exact H|].
  exact (no_match_is_not_an_error
           ["setup.py"; "src/transformers/models/foo/configuration_foo.py"]
           "" H).
Defined.

(** C7. In a run where the repository answers every call, the script
    writes the line of the mainline commit, the line of the head commit,
    one line for each merge base in the order they came, and the line of
    the model path, and nothing else: 2 + (number of merge bases) + 1
    lines. *)
Theorem stdout_of_normal_run (repo : Repo) (mainline : Reference)
  (m h : Commit) (bases : list Commit) (dss : list (list Diff))
  (out : string) :
  resolve_main repo out = (Ok mainline, out) ->
  commit repo mainline = Ok m ->
  commit repo (head repo) = Ok h ->
  merge_base repo mainline (head repo) = Ok bases ->
  diffs_against repo h bases = Ok dss ->
  let lines :=
    ([("main is at " ++ hexsha m)%string;
      ("Current head is at " ++ hexsha h)%string]
     ++ map (fun c => ("Branching commit: " ++ hexsha c)%string) bases
     ++ ["models/bert"])%list in
  main (Ok repo) out = (Ok tt, out ++ Str.unlines lines) /\
  List.length lines = 2 + List.length bases + 1 /\
  (Forall (fun c => Str.count_lines (hexsha c) = 0) (m :: h :: bases) ->
   Str.count_lines (Str.unlines lines) = 2 + List.length bases + 1).
Proof.
  intros R Hm Hh Hb Hd lines.
  assert (L : List.length lines = 2 + List.length bases + 1).
  { unfold lines. cbn [List.length app].
    rewrite length_app, length_map. cbn [List.length]. lia. }
  split; [|split; [exact L|]].
  - unfold main. unfold bind at 1.
    unfold get_new_python_files. unfold bind at 1, lift at 1.
    unfold bind at 1. rewrite R.
    rewrite (new_python_files_from_eq _ _ _ _ _ _ Hm Hh Hb).
    rewrite get_new_files_eq, Hd, report_eq. f_equal.
    change lines with (diagnostics m h bases ++ ["models/bert"])%list.
    rewrite StrFacts.unlines_app, StrFacts.append_assoc. reflexivity.
  - intros F. rewrite StrFacts.count_lines_unlines; [exact L|].
    apply Forall_cons_iff in F as (Fm & F).
    apply Forall_cons_iff in F as (Fh & F).
    unfold lines. repeat apply Forall_cons.
    + rewrite StrFacts.count_lines_app, Fm. reflexivity.
    + rewrite StrFacts.count_lines_app, Fh. reflexivity.
    + apply Forall_app. split.
      * apply Forall_map. revert F. apply Forall_impl. intros c Fc.
        rewrite StrFacts.count_lines_app, Fc. reflexivity.
      * repeat constructor.
Qed.

Lemma stdout_of_normal_run_witness :
  resolve_main Sample.repo "" = (Ok Sample.main_ref, "") /\
  commit Sample.repo Sample.main_ref = Ok Sample.main_commit /\
  commit Sample.repo (head Sample.repo) = Ok Sample.head_commit /\
  merge_base Sample.repo Sample.main_ref (head Sample.repo)
  = Ok [Sample.base1; Sample.base2] /\
  main (Ok Sample.repo) ""
  = (Ok tt,
     Str.unlines
       ["main is at 9b1c0de"; "Current head is at 4e77a2f";
        "Branching commit: 0a5d3c1"; "Branching commit: c41f9e8";
        "models/bert"]).
Proof.
  do 4 (split; [reflexivity|]).
  exact (proj1 (stdout_of_normal_run Sample.repo Sample.main_ref
                  Sample.main_commit Sample.head_commit
                  [Sample.base1; Sample.base2]
                  [Sample.diffs Sample.base1; Sample.diffs Sample.base2] ""
                  eq_refl eq_refl eq_refl eq_refl eq_refl)).
Defined.

(** C8. The value the loop ends with is decided by the first new file
    alone: it is the same for a list and for its first element taken
    alone, it is empty for the empty list, and a second file is not
    looked at even where the first has no match and the second has one. *)
Theorem extraction_depends_on_first_file (new_files : list string)
  (out : string) :
  extract_new_model new_files out
  = extract_new_model (firstn 1 new_files) out /\
  extract_new_model [] out = (Ok "", out) /\
  (forall x rest,
     extract_new_model (x :: rest) out
     = (Ok (hd "" (Re.findall reg x)), out)) /\
  Re.findall reg "setup.py" = [] /\
  Re.findall reg "src/transformers/models/foo/modeling_foo.py" = ["models/foo"] /\
  extract_new_model
    ["setup.py"; "src/transformers/models/foo/modeling_foo.py"] out
  = (Ok "", out).
Proof.
  repeat split; try (intros x rest); rewrite ?extract_new_model_eq;
    try reflexivity.
  destruct new_files; reflexivity.
Qed.

(** C9. The group is greedy and [.] goes over [/].  For a path that
    begins with a text of the pattern's form, read with any name (one
    with slashes too), the capture is a [models/...] whose name is at
    least as long as that one; with nested directories it is
    [models/a/b], several segments long, and where two file names could
    end the group it runs to the last. *)
Theorem capture_is_greedy (name x post : string) (others : list string)
  (out : string) :
  Str.count_lines name = 0 -> Str.count_lines x = 0 ->
  (exists name',
     extract_new_model
       (("src/transformers/models/" ++ name ++ "/modeling_" ++ x ++ ".py"
         ++ post) :: others) out
     = (Ok ("models/" ++ name'), out) /\
     String.length name <= String.length name') /\
  Re.accepts Re.Any "/" = true /\
  extract_new_model ["src/transformers/models/a/b/modeling_x.py"] out
  = (Ok "models/a/b", out) /\
  extract_new_model
    ["src/transformers/models/a/modeling_x.py/modeling_y.py"] out
  = (Ok "models/a/modeling_x.py", out).
Proof.
  intros Hn Hx. split.
  - destruct (Pattern.findall_at_start name x post Hn Hx)
      as (name' & tl & E & L).
    exists name'. rewrite extract_new_model_eq, E. now split.
  - repeat split; rewrite ?extract_new_model_eq; reflexivity.
Qed.

Lemma capture_is_greedy_witness :
  Str.count_lines "a/b" = 0 /\ Str.count_lines "x" = 0 /\
  exists name',
    extract_new_model ["src/transformers/models/a/b/modeling_x.py"] ""
    = (Ok ("models/" ++ name'), "") /\
    3 <= String.length name'.
Proof.
  split; [reflexivity|]. split; [reflexivity|].
  exact (proj1 (capture_is_greedy "a/b" "x" "" [] "" eq_refl eq_refl)).
Defined.

(** C10. The search is not anchored: a path that has a text of the form
    [src/transformers/models/<name>/modeling_<x>.py] anywhere in it, not
    only at its start, has a match, and the loop captures a
    [models/...] from it. *)
Theorem search_is_unanchored (pre name x post : string)
  (others : list string) (out : string) :
  Str.count_lines name = 0 -> Str.count_lines x = 0 ->
  exists name',
    extract_new_model
      ((pre ++ "src/transformers/models/" ++ name ++ "/modeling_" ++ x
            ++ ".py" ++ post) :: others) out
    = (Ok ("models/" ++ name'), out).
Proof.
  intros Hn Hx.
  destruct (Pattern.findall_infix pre name x post Hn Hx) as (name' & tl & E).
  exists name'. rewrite extract_new_model_eq, E. reflexivity.
Qed.

Lemma search_is_unanchored_witness :
  Str.count_lines "foo" = 0 /\
  exists name',
    extract_new_model ["a/src/transformers/models/foo/modeling_foo.py"] ""
    = (Ok ("models/" ++ name'), "").
Proof.
  split; [reflexivity|].
  exact (search_is_unanchored "a/" "foo" "foo" "" [] "" eq_refl eq_refl).
Defined.

(** The capture at that path. *)
Example prefixed_path_capture :
  extract_new_model ["a/src/transformers/models/foo/modeling_foo.py"] ""
  = (Ok "models/foo", "").
Proof. reflexivity. Qed.

(** * Further properties of the script *)

(** ** [get_new_files] *)

Lemma diffs_against_app (repo : Repo) (base : Commit)
  (cs1 cs2 : list Commit) :
  diffs_against repo base (cs1 ++ cs2)%list =
  match diffs_against repo base cs1 with
  | Ok dss1 =>
      match diffs_against repo base cs2 with
      | Ok dss2 => Ok (dss1 ++ dss2)%list
      | Raise e => Raise e
      end
  | Raise e => Raise e
  end.
Proof.
  induction cs1 as [|c cs1 IH]; cbn [app diffs_against].
  - now destruct (diffs_against repo base cs2).
  - destruct (diff repo c base) as [ds|e]; [|reflexivity].
    rewrite IH.
    destruct (diffs_against repo base cs1) as [dss1|e]; [|reflexivity].
    now destruct (diffs_against repo base cs2).
Qed.

(** X1. The diff of the first commit that cannot be computed ends
    [get_new_files]: its exception is raised, whatever the commits
    before it gave and whatever comes after it, and no partial list is
    returned. *)
Theorem get_new_files_first_failure (repo : Repo) (base_commit : Commit)
  (before after : list Commit) (c : Commit) (e : exn) (out : string) :
  (forall c', In c' before -> exists ds, diff repo c' base_commit = Ok ds) ->
  diff repo c base_commit = Raise e ->
  get_new_files repo base_commit (before ++ c :: after)%list out
  = (Raise e, out).
Proof.
  intros Hb Hc. rewrite get_new_files_eq.
  assert (E : diffs_against repo base_commit (before ++ c :: after)%list
              = Raise e).
  { induction before as [|c' cs IH]; cbn [app diffs_against].
    - now rewrite Hc.
    - destruct (Hb c' (or_introl eq_refl)) as (ds & ->).
      rewrite IH; [reflexivity|]. intros c'' H. apply Hb. now right. }
  now rewrite E.
Qed.

Lemma get_new_files_first_failure_witness :
  (forall c', In c' [Sample.base1] ->
     exists ds, diff Faulty.no_diff c' Sample.head_commit = Ok ds) /\
  diff Faulty.no_diff Sample.base2 Sample.head_commit
  = Raise (PyExc "GitCommandError") /\
  get_new_files Faulty.no_diff Sample.head_commit
    [Sample.base1; Sample.base2; Sample.base1] ""
  = (Raise (PyExc "GitCommandError"), "").
Proof.
  assert (H : forall c', In c' [Sample.base1] ->
            exists ds, diff Faulty.no_diff c' Sample.head_commit = Ok ds)
    by (intros c' [<-|[]]; eexists; reflexivity).
  split; [exact H|]. split; [reflexivity|].
  exact (get_new_files_first_failure Faulty.no_diff Sample.head_commit
           [Sample.base1] [Sample.base1] Sample.base2
           (PyExc "GitCommandError") "" H eq_refl).
Defined.

(** X2. The new files of a list of commits are those of its front part
    followed by those of its back part. *)
Theorem get_new_files_app (repo : Repo) (base_commit : Commit)
  (cs1 cs2 : list Commit) (l1 l2 : list string) (out : string) :
  get_new_files repo base_commit cs1 out = (Ok l1, out) ->
  get_new_files repo base_commit cs2 out = (Ok l2, out) ->
  get_new_files repo base_commit (cs1 ++ cs2)%list out
  = (Ok (l1 ++ l2)%list, out).
Proof.
  rewrite !get_new_files_eq, diffs_against_app.
  destruct (diffs_against repo base_commit cs1) as [dss1|e1]; [|discriminate].
  destruct (diffs_against repo base_commit cs2) as [dss2|e2]; [|discriminate].
  intros [= <-] [= <-]. now rewrite flat_map_app.
Qed.

Lemma get_new_files_app_witness :
  get_new_files Sample.repo Sample.head_commit [Sample.base1] ""
  = (Ok ["src/transformers/models/gemma/modeling_gemma.py"], "") /\
  get_new_files Sample.repo Sample.head_commit [Sample.base2] ""
  = (Ok ["tests/models/gemma/test_modeling_gemma.py";
         "src/transformers/models/gemma/modeling_gemma.py"], "") /\
  get_new_files Sample.repo Sample.head_commit
    [Sample.base1; Sample.base2] ""
  = (Ok ["src/transformers/models/gemma/modeling_gemma.py";
         "tests/models/gemma/test_modeling_gemma.py";
         "src/transformers/models/gemma/modeling_gemma.py"], "").
Proof.
  split; [reflexivity|]. split; [reflexivity|].
  exact (get_new_files_app Sample.repo Sample.head_commit
           [Sample.base1] [Sample.base2] _ _ "" eq_refl eq_refl).
Defined.

(** X3. [get_new_files] writes nothing, and every path it returns ends
    with [".py"]. *)
Theorem get_new_files_quiet_and_python (repo : Repo) (base_commit : Commit)
  (commits : list Commit) (out : string) :
  snd (get_new_files repo base_commit commits out) = out /\
  match fst (get_new_files repo base_commit commits out) with
  | Ok paths => Forall (fun p => exists q, p = q ++ ".py") paths
  | Raise _ => True
  end.
Proof.
  rewrite get_new_files_eq. cbn [fst snd]. split; [reflexivity|].
  destruct (diffs_against repo base_commit commits) as [dss|e]; [|exact I].
  apply Forall_forall. intros p Hp.
  apply in_flat_map in Hp as (ds & _ & Hp).
  apply in_map_iff in Hp as (d & <- & Hd).
  apply filter_In in Hd as (_ & Hd).
  now apply added_python_spec in Hd.
Qed.

(** X4. Only added files count: where no entry of any diff has the
    change type ["A"] (all are modified, deleted, renamed...), the list
    returned is empty, Python files or not. *)
Theorem get_new_files_ignores_other_changes (repo : Repo)
  (base_commit : Commit) (commits : list Commit)
  (ds : Commit -> list Diff) (out : string) :
  (forall c, In c commits -> diff repo c base_commit = Ok (ds c)) ->
  (forall c d, In c commits -> In d (ds c) -> change_type d <> "A") ->
  get_new_files repo base_commit commits out = (Ok [], out).
Proof.
  intros H N. rewrite get_new_files_eq, (diffs_against_ok _ _ _ _ H).
  do 2 f_equal. clear H.
  induction commits as [|c cs IH]; cbn [map flat_map]; [reflexivity|].
  rewrite IH by (intros c' d Hc'; apply N; now right).
  rewrite app_nil_r.
  assert (E : filter added_python (ds c) = []).
  { assert (F : forall d, In d (ds c) -> change_type d <> "A")
      by (intros d; apply N; now left).
    induction (ds c) as [|d l IHl]; cbn [filter]; [reflexivity|].
    destruct (added_python d) eqn:A.
    - apply added_python_spec in A as (A & _).
      now elim (F d (or_introl eq_refl)).
    - apply IHl. intros d' Hd'. apply F. now right. }
  now rewrite E.
Qed.

Lemma get_new_files_ignores_other_changes_witness :
  (forall c, In c [Sample.base1] ->
     diff Edits.repo c Sample.head_commit = Ok (Edits.diffs c)) /\
  (forall c d, In c [Sample.base1] -> In d (Edits.diffs c) ->
     change_type d <> "A") /\
  get_new_files Edits.repo Sample.head_commit [Sample.base1] "" = (Ok [], "").
Proof.
  assert (H : forall c, In c [Sample.base1] ->
            diff Edits.repo c Sample.head_commit = Ok (Edits.diffs c))
    by (intros c _; reflexivity).
  assert (N : forall c d, In c [Sample.base1] -> In d (Edits.diffs c) ->
            change_type d <> "A")
    by (intros c d _ [<-|[<-|[<-|[]]]]; discriminate).
  split; [exact H|]. split; [exact N|].
  exact (get_new_files_ignores_other_changes Edits.repo Sample.head_commit
           [Sample.base1] Edits.diffs "" H N).
Defined.

(** ** What a run has written when it fails *)

(** X5. A run that fails early has written what came before the failing
    call and nothing else: nothing when the mainline commit cannot be
    read, the mainline line alone when the head commit cannot be read,
    the two lines when the merge base cannot be computed. *)
Theorem output_before_early_failure (repo : Repo) (mainline : Reference)
  (out : string) :
  resolve_main repo out = (Ok mainline, out) ->
  match commit repo mainline with
  | Raise e => main (Ok repo) out = (Raise e, out)
  | Ok m =>
      match commit repo (head repo) with
      | Raise e =>
          main (Ok repo) out
          = (Raise e, out ++ Str.unlines ["main is at " ++ hexsha m])
      | Ok h =>
          match merge_base repo mainline (head repo) with
          | Raise e =>
              main (Ok repo) out
              = (Raise e,
                 out ++ Str.unlines ["main is at " ++ hexsha m;
                                     "Current head is at " ++ hexsha h])
          | Ok _ => True
          end
      end
  end.
Proof.
  intros R.
  assert (G : get_new_python_files (Ok repo) out
              = new_python_files_from repo mainline out).
  { unfold get_new_python_files. unfold bind at 1, lift at 1.
    unfold bind at 1. now rewrite R. }
  assert (M : main (Ok repo) out =
              match new_python_files_from repo mainline out with
              | (Ok new_files, out') => report new_files out'
              | (Raise e, out') => (Raise e, out')
              end).
  { unfold main. unfold bind at 1. now rewrite G. }
  unfold new_python_files_from in M.
  unfold bind at 1, lift at 1 in M.
  destruct (commit repo mainline) as [m|e]; [|exact M].
  unfold bind at 1, print at 1 in M.
  unfold bind at 1, lift at 1 in M.
  destruct (commit repo (head repo)) as [h|e].
  - unfold bind at 1, print at 1 in M.
    unfold bind at 1, lift at 1 in M.
    destruct (merge_base repo mainline (head repo)) as [bases|e]; [exact I|].
    rewrite M. cbn [Str.unlines]. f_equal; StrFacts.flatten; reflexivity.
  - rewrite M. cbn [Str.unlines]. f_equal; StrFacts.flatten; reflexivity.
Qed.

Lemma output_before_early_failure_witness :
  resolve_main Faulty.no_merge_base "" = (Ok Sample.main_ref, "") /\
  main (Ok Faulty.no_merge_base) ""
  = (Raise (PyExc "GitCommandError"),
     Str.unlines ["main is at 9b1c0de"; "Current head is at 4e77a2f"]).
Proof.
  split; [reflexivity|].
  exact (output_before_early_failure Faulty.no_merge_base Sample.main_ref ""
           eq_refl).
Defined.

(** X6. The lines of all the merge bases are written before the first
    diff is computed: a run in which a diff fails has written its two
    diagnostic lines and one line for every merge base, and not the
    last line. *)
Theorem output_before_diff_failure (repo : Repo) (mainline : Reference)
  (m h : Commit) (bases : list Commit) (e : exn) (out : string) :
  resolve_main repo out = (Ok mainline, out) ->
  commit repo mainline = Ok m ->
  commit repo (head repo) = Ok h ->
  merge_base repo mainline (head repo) = Ok bases ->
  diffs_against repo h bases = Raise e ->
  main (Ok repo) out
  = (Raise e,
     out ++ Str.unlines
              (["main is at " ++ hexsha m; "Current head is at " ++ hexsha h]
               ++ map (fun c => "Branching commit: " ++ hexsha c) bases)).
Proof.
  intros R Hm Hh Hb Hd.
  unfold main. unfold bind at 1.
  unfold get_new_python_files. unfold bind at 1, lift at 1.
  unfold bind at 1. rewrite R.
  rewrite (new_python_files_from_eq _ _ _ _ _ _ Hm Hh Hb).
  rewrite get_new_files_eq, Hd. reflexivity.
Qed.

Lemma output_before_diff_failure_witness :
  diffs_against Faulty.no_diff Sample.head_commit [Sample.base1; Sample.base2]
  = Raise (PyExc "GitCommandError") /\
  main (Ok Faulty.no_diff) ""
  = (Raise (PyExc "GitCommandError"),
     Str.unlines ["main is at 9b1c0de"; "Current head is at 4e77a2f";
                  "Branching commit: 0a5d3c1"; "Branching commit: c41f9e8"]).
Proof.
  split; [reflexivity|].
  exact (output_before_diff_failure Faulty.no_diff Sample.main_ref
           Sample.main_commit Sample.head_commit
           [Sample.base1; Sample.base2] (PyExc "GitCommandError") ""
           eq_refl eq_refl eq_refl eq_refl eq_refl).
Defined.

(** X7. The runs that end normally are exactly those in which the
    repository opens, a mainline reference is found, the two commits and
    the merge bases are read, and every diff is computed. *)
Theorem normal_run_iff (open_repo : result Repo) (out : string) :
  (exists out', main open_repo out = (Ok tt, out')) <->
  (exists repo mainline m h bases dss,
     open_repo = Ok repo /\
     resolve_main repo out = (Ok mainline, out) /\
     commit repo mainline = Ok m /\
     commit repo (head repo) = Ok h /\
     merge_base repo mainline (head repo) = Ok bases /\
     diffs_against repo h bases = Ok dss).
Proof.
  split.
  - intros (out' & H). exact (main_ok_inv _ _ _ H).
  - intros (repo & mainline & m & h & bases & dss
            & -> & R & Hm & Hh & Hb & Hd).
    eexists. unfold main. unfold bind at 1.
    unfold get_new_python_files. unfold bind at 1, lift at 1.
    unfold bind at 1. rewrite R.
    rewrite (new_python_files_from_eq _ _ _ _ _ _ Hm Hh Hb).
    rewrite get_new_files_eq, Hd. apply report_eq.
Qed.

(** ** What the loop can capture *)

(** The first text found by the scan is the group of a match at some
    place of the input. *)
Lemma scan_hd_inv (r : Re.regex) (s v : string) (tl : list string) :
  Re.scan r s 0 = v :: tl ->
  exists s1 s2 rest g,
    s = s1 ++ s2 /\ Re.match_at r s2 = Some (rest, g) /\
    v = match g with Some t => t | None => "" end.
Proof.
  induction s as [|c s IH]; cbn [Re.scan].
  - destruct (Re.match_at r "") as [[rest g]|] eqn:E; [|discriminate].
    intros [= <- _]. now exists "", "", rest, g.
  - destruct (Re.match_at r (String c s)) as [[rest g]|] eqn:E.
    + intros [= <- _]. now exists "", (String c s), rest, g.
    + intros H. destruct (IH H) as (s1 & s2 & rest & g & -> & Hm & Hv).
      now exists (String c s1), s2, rest, g.
Qed.

(** Passing the characters of a match brings the scan to what follows it. *)
Lemma scan_skip (r : Re.regex) (a b : string) :
  Re.scan r (a ++ b) (String.length a) = Re.scan r b 0.
Proof.
  induction a as [|c a IH]; cbn [append String.length Re.scan];
    [reflexivity | exact IH].
Qed.

Lemma scan_after_match (r : Re.regex) (c : ascii) (m rest : string) :
  Re.scan r (m ++ rest)
    (String.length (String c (m ++ rest)) - String.length rest - 1)
  = Re.scan r rest 0.
Proof.
  replace (String.length (String c (m ++ rest)) - String.length rest - 1)
    with (String.length m)
    by (cbn [String.length]; rewrite StrFacts.length_append; lia).
  apply scan_skip.
Qed.

(** The first capture of a path is a [models/...] that the path has in
    it, in a text of the pattern's form. *)
Lemma findall_hd_inv (x v : string) (tl : list string) :
  Re.findall reg x = v :: tl ->
  exists pre name y post,
    v = "models/" ++ name /\
    x = pre ++ "src/transformers/models/" ++ name ++ "/modeling_" ++ y
        ++ ".py" ++ post /\
    Str.count_lines name = 0 /\ Str.count_lines y = 0.
Proof.
  intros H. apply scan_hd_inv in H as (s1 & s2 & rest & g & -> & Hm & ->).
  apply Pattern.match_at_inv in Hm as (name & y & -> & -> & Hn & Hy & _).
  now exists s1, name, y, rest.
Qed.

(** X8. What the loop captures is never made up: it is either empty or
    a [models/<name>], without a newline, that stands in the first new
    file in a text [src/transformers/models/<name>/modeling_<y>.py]. *)
Theorem capture_is_in_first_file (new_files : list string) (out : string) :
  exists v,
    extract_new_model new_files out = (Ok v, out) /\
    (v = "" \/
     exists x others pre name y post,
       new_files = x :: others /\
       v = "models/" ++ name /\
       x = pre ++ "src/transformers/models/" ++ name ++ "/modeling_" ++ y
           ++ ".py" ++ post /\
       Str.count_lines name = 0 /\ Str.count_lines y = 0).
Proof.
  eexists. split; [apply extract_new_model_eq|].
  destruct new_files as [|x others]; [now left|].
  destruct (Re.findall reg x) as [|v tl] eqn:E; [now left|].
  right. cbn [hd].
  destruct (findall_hd_inv _ _ _ E) as (pre & name & y & post & Hv & Hx & Hn & Hy).
  now exists x, others, pre, name, y, post.
Qed.

(** X9. The loop ends with an empty [new_model] exactly when the first
    new file has no text of the pattern's form in it. *)
Theorem capture_empty_iff (x : string) (others : list string) (out : string) :
  extract_new_model (x :: others) out = (Ok "", out) <->
  (forall pre name y post,
     Str.count_lines name = 0 -> Str.count_lines y = 0 ->
     x <> pre ++ "src/transformers/models/" ++ name ++ "/modeling_" ++ y
          ++ ".py" ++ post).
Proof.
  rewrite extract_new_model_eq, <- Pattern.findall_nil_iff.
  destruct (Re.findall reg x) as [|v tl] eqn:E; cbn [hd].
  - tauto.
  - destruct (findall_hd_inv _ _ _ E) as (pre & name & y & post & -> & _).
    split; discriminate.
Qed.

(** ** One match in a path *)

(** In an input of one line, the last [.*] of the pattern runs to the
    last [.py]: none is left after a match. *)
Lemma match_at_last_py (s rest : string) (g : option string) :
  Re.match_at reg s = Some (rest, g) ->
  Str.count_lines s = 0 ->
  forall b rest', rest <> b ++ ".py" ++ rest'.
Proof.
  unfold Re.match_at, reg. intros H L b rest' ->.
  do 17 Pattern.literal H. rewrite ReFacts.run_open in H.
  do 7 Pattern.literal H.
  apply ReFacts.run_many_inv in H as (name & t & -> & H & Hn & _).
  rewrite ReFacts.run_close in H. do 10 Pattern.literal H.
  apply ReFacts.run_many_inv in H as (x & u & -> & H & Hx & Max).
  do 3 Pattern.literal H. rewrite ReFacts.run_nil in H.
  injection H as E _. subst.
  simpl in L.
  repeat (rewrite StrFacts.count_lines_app in L; simpl in L).
  specialize (Max (x ++ ".py" ++ b) (".py" ++ rest')).
  rewrite !StrFacts.length_append in Max. cbn [String.length] in Max.
  enough (String.length x + (3 + String.length b) <= String.length x) by lia.
  apply Max.
  - StrFacts.flatten. reflexivity.
  - apply ReFacts.every_any.
    rewrite StrFacts.count_lines_app. simpl.
    rewrite ?StrFacts.count_lines_app. lia.
  - discriminate.
Qed.

(** X10. A path of one line has at most one match: after the first one
    nothing more is found, so that taking the first element of what
    [findall] returns leaves nothing out. *)
Theorem findall_at_most_one (x : string) :
  Str.count_lines x = 0 -> List.length (Re.findall reg x) <= 1.
Proof.
  unfold Re.findall. induction x as [|c x IH]; intros L.
  - vm_compute. lia.
  - cbn [Re.scan].
    destruct (Re.match_at reg (String c x)) as [[rest g]|] eqn:E.
    + enough (N : Re.scan reg x
                    (String.length (String c x) - String.length rest - 1)
                  = []) by (rewrite N; cbn [List.length]; lia).
      pose proof (match_at_last_py _ _ _ E L) as Last.
      apply Pattern.match_at_inv in E as (name & y & Ex & _ & _ & _ & _).
      cbn [append] in Ex. injection Ex as _ Ex.
      assert (Em : x = ("rc/transformers/models/" ++ name ++ "/modeling_"
                        ++ y ++ ".py") ++ rest)
        by (rewrite Ex; StrFacts.flatten; reflexivity).
      rewrite Em.
      rewrite scan_after_match. apply ReFacts.scan_none. intros s1 s2 ->.
      destruct (Re.match_at reg s2) as [[rest2 g2]|] eqn:E2; [|reflexivity].
      apply Pattern.match_at_inv in E2 as (n2 & y2 & -> & _).
      elim (Last (s1 ++ "src/transformers/models/" ++ n2 ++ "/modeling_" ++ y2)
                 rest2).
      StrFacts.flatten. reflexivity.
    + apply IH. cbn [Str.count_lines] in L.
      destruct (Ascii.eqb c "010"); [discriminate | exact L].
Qed.

Lemma findall_at_most_one_witness :
  Str.count_lines
    "src/transformers/models/a/modeling_a.py src/transformers/models/b/modeling_b.py"
  = 0 /\
  List.length
    (Re.findall reg
       "src/transformers/models/a/modeling_a.py src/transformers/models/b/modeling_b.py")
  <= 1.
Proof.
  split; [reflexivity|].
  exact (findall_at_most_one
           "src/transformers/models/a/modeling_a.py src/transformers/models/b/modeling_b.py"
           eq_refl).
Defined.

(** ** The capture of a modeling file *)

Lemma has_char_app (c : ascii) (a b : string) :
  has_char c (a ++ b) = has_char c a || has_char c b.
Proof.
  induction a as [|d a IH]; cbn [append has_char]; [reflexivity|].
  now rewrite IH, orb_assoc.
Qed.

(** Two ways of cutting one text: the shorter front part is the start of
    the longer. *)
Lemma append_split (a b u v : string) :
  a ++ u = b ++ v -> String.length a <= String.length b ->
  exists d, b = a ++ d /\ u = d ++ v.
Proof.
  revert b. induction a as [|c a IH]; intros b E L.
  - now exists b.
  - destruct b as [|c' b]; cbn [String.length] in L; [lia|].
    cbn [append] in E. injection E as <- E.
    destruct (IH b E) as (d & -> & ->); [lia|]. now exists d.
Qed.

(** X11. The capture is exact on a modeling file: for the path
    [src/transformers/models/<name>/modeling_<y>.py], where the file
    name part [y] has no slash (and nothing has a newline), the loop
    captures [models/<name>], whether [name] is one directory or
    several. *)
Theorem capture_of_modeling_file (name y : string) (others : list string)
  (out : string) :
  Str.count_lines name = 0 -> Str.count_lines y = 0 ->
  has_char "/" y = false ->
  extract_new_model
    (("src/transformers/models/" ++ name ++ "/modeling_" ++ y ++ ".py")
     :: others) out
  = (Ok ("models/" ++ name), out).
Proof.
  intros Hn Hy Hs. rewrite extract_new_model_eq. f_equal.
  pose proof (ReFacts.run_complete _ _ (Pattern.reg_derives name y Hn Hy) ""
                None None) as H.
  rewrite StrFacts.append_nil_r in H.
  fold (Re.match_at reg
          ("src/transformers/models/" ++ name ++ "/modeling_" ++ y ++ ".py"))
    in H.
  destruct (Re.match_at reg
              ("src/transformers/models/" ++ name ++ "/modeling_" ++ y
               ++ ".py")) as [[rest g]|] eqn:E; [|now elim H].
  destruct (ReFacts.scan_head _ _ _ _ E) as (tl & Hf).
  unfold Re.findall. rewrite Hf. cbn [hd].
  apply Pattern.match_at_inv in E as (name' & y' & Ex & -> & _ & _ & Max).
  pose proof (Max name y "" Hn Hy eq_refl) as L.
  cbn [append] in Ex. injection Ex as Ex.
  destruct (append_split _ _ _ _ Ex L) as (d & -> & Ed).
  destruct d as [|c d].
  - now rewrite StrFacts.append_nil_r.
  - cbn [append] in Ed. injection Ed as _ Ed.
    apply (f_equal (has_char "/")) in Ed. simpl in Ed.
    rewrite !has_char_app, Hs in Ed. simpl in Ed.
    rewrite orb_true_r in Ed. discriminate.
Qed.

Lemma capture_of_modeling_file_witness :
  Str.count_lines "gemma" = 0 /\ has_char "/" "gemma" = false /\
  extract_new_model
    ["src/transformers/models/gemma/modeling_gemma.py"; "setup.py"] ""
  = (Ok "models/gemma", "").
Proof.
  split; [reflexivity|]. split; [reflexivity|].
  exact (capture_of_modeling_file "gemma" "gemma" ["setup.py"] ""
           eq_refl eq_refl eq_refl).
Defined.

(** ** What [get_new_python_files] returns *)

(** X12. In a run where every call is answered, [get_new_python_files]
    returns the added Python files of the diffs between each merge base
    and the head commit, in the order of the merge bases, after writing
    its diagnostic lines; the mainline commit itself is compared with
    nothing. *)
Theorem get_new_python_files_returns (repo : Repo) (mainline : Reference)
  (m h : Commit) (bases : list Commit) (ds : Commit -> list Diff)
  (out : string) :
  resolve_main repo out = (Ok mainline, out) ->
  commit repo mainline = Ok m ->
  commit repo (head repo) = Ok h ->
  merge_base repo mainline (head repo) = Ok bases ->
  (forall c, In c bases -> diff repo c h = Ok (ds c)) ->
  get_new_python_files (Ok repo) out
  = (Ok (flat_map (fun c => map b_path (filter added_python (ds c))) bases),
     out ++ Str.unlines
              (["main is at " ++ hexsha m; "Current head is at " ++ hexsha h]
               ++ map (fun c => "Branching commit: " ++ hexsha c) bases)).
Proof.
  intros R Hm Hh Hb Hd.
  unfold get_new_python_files. unfold bind at 1, lift at 1.
  unfold bind at 1. rewrite R.
  rewrite (new_python_files_from_eq _ _ _ _ _ _ Hm Hh Hb).
  rewrite get_new_files_eq, (diffs_against_ok _ _ _ _ Hd).
  f_equal. f_equal. clear.
  induction bases as [|c cs IH]; cbn [map flat_map];
    [reflexivity | now rewrite IH].
Qed.

Lemma get_new_python_files_returns_witness :
  (forall c, In c [Sample.base1; Sample.base2] ->
     diff Sample.repo c Sample.head_commit = Ok (Sample.diffs c)) /\
  get_new_python_files (Ok Sample.repo) ""
  = (Ok ["src/transformers/models/gemma/modeling_gemma.py";
         "tests/models/gemma/test_modeling_gemma.py";
         "src/transformers/models/gemma/modeling_gemma.py"],
     Str.unlines ["main is at 9b1c0de"; "Current head is at 4e77a2f";
                  "Branching commit: 0a5d3c1"; "Branching commit: c41f9e8"]).
Proof.
  assert (H : forall c, In c [Sample.base1; Sample.base2] ->
            diff Sample.repo c Sample.head_commit = Ok (Sample.diffs c))
    by (intros c _; reflexivity).
  split; [exact H|].
  exact (get_new_python_files_returns Sample.repo Sample.main_ref
           Sample.main_commit Sample.head_commit
           [Sample.base1; Sample.base2] Sample.diffs ""
           eq_refl eq_refl eq_refl eq_refl H).
Defined.
